(** * Objects-in-C99: the object / interface / vtable demonstration

    A shallow embedding of [interface_demo.c].  The C program builds a tiny
    object system out of four structs ([iface], [impl], [class], [object]),
    one lookup ([has_iface]), one polymorphic consumer ([println]) and one
    concrete type ([number]) that implements the printable interface.

    Pointers are addresses into a store of typed blocks; every function of
    the program that touches the heap or the output stream is a computation
    in a state-and-fault monad, so that a failed [assert] and an undefined
    access are results one can state theorems about. *)

From Stdlib Require Import ZArith List Lia.
From Stdlib.Strings Require Import Byte.
From stdpp Require Import base option list gmap.

Local Open Scope Z_scope.

(** ** Platform constants

    [sizeof] and [INT_MAX] are fixed by the C implementation, not by the
    program.  Object pointers ([void *], [iface *]) share one size, which is
    what makes [struct impl] two pointers wide. *)

Class Platform := {
  sizeof_int : Z;
  sizeof_ptr : Z;
  sizeof_funptr : Z;
  INT_MAX : Z;
  sizeof_ptr_pos : 0 < sizeof_ptr;
  INT_MAX_min : 32767 <= INT_MAX
}.

(** ** Pointers and the four structs of [object.h] *)

Definition addr := positive.

Inductive ptr :=
  | NULL
  | Ptr (a : addr).

#[global] Instance ptr_eq_dec : EqDecision ptr.
Proof. solve_decision. Defined.

(** A pointer to a function with the [toString] signature.  The translation
    unit defines exactly one such function, [number_print]. *)
Inductive funptr :=
  | fun_null
  | fun_number_print
  | fun_foreign (id : N).

#[global] Instance funptr_eq_dec : EqDecision funptr.
Proof. solve_decision. Defined.

Record iface := { vtable_size : Z }.

Record impl := { impl_type : ptr; impl_vtable : ptr }.

#[global] Instance impl_eq_dec : EqDecision impl.
Proof. solve_decision. Defined.

(** [interface_count] is an [unsigned char]. *)
Record class := {
  instance_size : Z;
  interface_count : byte;
  interfaces : ptr
}.

Record object := { object_type : ptr; object_instance : ptr }.

Record printable_vtable := { toString : funptr }.

Record number := { representation : Z }.

(** Conversion of an integer to [unsigned char] / [char]: the low eight bits. *)
Definition uchar_of_Z (z : Z) : byte :=
  default x00 (Byte.of_N (Z.to_N (z mod 256))).

Definition uchar_to_nat (b : byte) : nat := N.to_nat (Byte.to_N b).

(** ** The store *)

Inductive storage := Static | Automatic | Allocated.

#[global] Instance storage_eq_dec : EqDecision storage.
Proof. solve_decision. Defined.

Inductive cell :=
  | CIface (d : iface)
  | CClass (c : class)
  | CImpls (l : list impl)
  | CVtable (v : printable_vtable)
  | CNumber (n : number)
  | CUninit.

(** A block stays in the store after [free] or after its scope ends, marked
    dead, so a dangling pointer is recognised as such. *)
Record block := { blk_storage : storage; blk_live : bool; blk_content : cell }.

Record state := {
  mem : gmap addr block;
  avail : nat;            (* allocations [malloc] can still satisfy *)
  stdout : list byte      (* everything written to descriptor 1 *)
}.

(** ** Faults *)

Inductive assert_site :=
  | in_println
  | in_number_print
  | in_new_runtime_number_print_iface.

Inductive undefined :=
  | NullDeref
  | Dangling
  | BadAccess
  | OutOfBounds
  | BadFree
  | BadCall
  | IntOverflow.

Inductive fault :=
  | AssertionFailed (site : assert_site)
  | Undefined (why : undefined).

Inductive result (A : Type) :=
  | Ok (a : A)
  | Fault (f : fault).
Arguments Ok {A} a.
Arguments Fault {A} f.

Definition rbind {A B} (r : result A) (k : A -> result B) : result B :=
  match r with
  | Ok a => k a
  | Fault f => Fault f
  end.

(** Computations that may change the store or the output stream. *)
Definition M (A : Type) : Type := state -> result (A * state).

Definition ret {A} (a : A) : M A := fun s => Ok (a, s).

Definition bind {A B} (c : M A) (k : A -> M B) : M B :=
  fun s => match c s with
           | Ok (a, s') => k a s'
           | Fault f => Fault f
           end.

Definition raise {A} (f : fault) : M A := fun _ => Fault f.

(** A read-only access to the store. *)
Definition reading {A} (f : gmap addr block -> result A) : M A :=
  fun s => match f (mem s) with
           | Ok a => Ok (a, s)
           | Fault e => Fault e
           end.

Declare Scope c_scope.
Delimit Scope c_scope with C.
Notation "x <- c ;; k" := (bind c (fun x => k))
  (at level 100, c at next level, right associativity) : c_scope.
Notation "c ;;; k" := (bind c (fun _ => k))
  (at level 100, right associativity) : c_scope.
Notation "x <~ r ;; k" := (rbind r (fun x => k))
  (at level 100, r at next level, right associativity) : c_scope.

(** [assert] as [<assert.h>] defines it when [NDEBUG] is not set, which the
    program never does. *)
Definition assert (site : assert_site) (b : bool) : M unit :=
  if b then ret tt else raise (AssertionFailed site).

(** ** Loads *)

Definition load (m : gmap addr block) (p : ptr) : result cell :=
  match p with
  | NULL => Fault (Undefined NullDeref)
  | Ptr a =>
      match m !! a with
      | Some b => if blk_live b then Ok (blk_content b)
                  else Fault (Undefined Dangling)
      | None => Fault (Undefined Dangling)
      end
  end.

Definition load_iface (m : gmap addr block) (p : ptr) : result iface :=
  (c <~ load m p ;;
   match c with CIface d => Ok d | _ => Fault (Undefined BadAccess) end)%C.

Definition load_class (m : gmap addr block) (p : ptr) : result class :=
  (c <~ load m p ;;
   match c with CClass k => Ok k | _ => Fault (Undefined BadAccess) end)%C.

Definition load_impls (m : gmap addr block) (p : ptr) : result (list impl) :=
  (c <~ load m p ;;
   match c with CImpls l => Ok l | _ => Fault (Undefined BadAccess) end)%C.

Definition load_vtable (m : gmap addr block) (p : ptr) : result printable_vtable :=
  (c <~ load m p ;;
   match c with CVtable v => Ok v | _ => Fault (Undefined BadAccess) end)%C.

Definition load_number (m : gmap addr block) (p : ptr) : result number :=
  (c <~ load m p ;;
   match c with CNumber n => Ok n | _ => Fault (Undefined BadAccess) end)%C.

(** ** Interface resolution: [has_iface] and [iface_isnull] *)

Definition null_impl : impl := {| impl_type := NULL; impl_vtable := NULL |}.

(** The body of the [for] loop, [remaining] iterations before [i] reaches
    [interface_count].  [self.type->interfaces[i]] is read in each iteration;
    an index past the end of the array is an undefined access.  ([i] is an
    [unsigned char] below [interface_count], so [++i] cannot wrap.) *)
Fixpoint has_iface_from (m : gmap addr block) (c : class) (interface : ptr)
    (remaining i : nat) : result impl :=
  match remaining with
  | O => Ok null_impl
  | S k =>
      (arr <~ load_impls m (interfaces c) ;;
       match arr !! i with
       | None => Fault (Undefined OutOfBounds)
       | Some e =>
           if decide (impl_type e = interface) then Ok e
           else has_iface_from m c interface k (S i)
       end)%C
  end.

Definition has_iface (m : gmap addr block) (self : object) (interface : ptr)
    : result impl :=
  (c <~ load_class m (object_type self) ;;
   has_iface_from m c interface (uchar_to_nat (interface_count c)) 0)%C.

Definition iface_isnull (interface : impl) : Z :=
  if decide (impl_vtable interface = NULL) then 1 else 0.

(** ** Allocation, release and output *)

Definition with_mem (s : state) (m : gmap addr block) : state :=
  {| mem := m; avail := avail s; stdout := stdout s |}.

(** [malloc] returns the null pointer when the allocator is exhausted and a
    fresh, uninitialised block otherwise. *)
Definition malloc (size : Z) : M ptr :=
  fun s =>
    match avail s with
    | O => Ok (NULL, s)
    | S k =>
        let a := fresh (dom (mem s)) in
        Ok (Ptr a,
            {| mem := <[a := {| blk_storage := Allocated; blk_live := true;
                                blk_content := CUninit |}]> (mem s);
               avail := k;
               stdout := stdout s |})
    end.

(** [free(NULL)] does nothing; freeing anything but a live [malloc]ed block
    is undefined. *)
Definition free (p : ptr) : M unit :=
  fun s =>
    match p with
    | NULL => Ok (tt, s)
    | Ptr a =>
        match mem s !! a with
        | Some {| blk_storage := Allocated; blk_live := true; blk_content := c |} =>
            Ok (tt, with_mem s (<[a := {| blk_storage := Allocated; blk_live := false;
                                          blk_content := c |}]> (mem s)))
        | _ => Fault (Undefined BadFree)
        end
    end.

(** A variable with automatic storage and an initialiser, and the end of its
    scope. *)
Definition auto_var (c : cell) : M ptr :=
  fun s =>
    let a := fresh (dom (mem s)) in
    Ok (Ptr a, with_mem s (<[a := {| blk_storage := Automatic; blk_live := true;
                                     blk_content := c |}]> (mem s))).

Definition end_scope (p : ptr) : M unit :=
  fun s =>
    match p with
    | NULL => Ok (tt, s)
    | Ptr a => Ok (tt, with_mem s (alter (fun b => {| blk_storage := blk_storage b;
                                                     blk_live := false;
                                                     blk_content := blk_content b |}) a (mem s)))
    end.

(** Writing a member through a pointer to [malloc]ed storage: the block takes
    the member's struct as its type. *)
Definition store_through (p : ptr) (fits : cell -> bool) (c : cell) : M unit :=
  fun s =>
    match p with
    | NULL => Fault (Undefined NullDeref)
    | Ptr a =>
        match mem s !! a with
        | Some b =>
            if blk_live b then
              if fits (blk_content b) then
                Ok (tt, with_mem s (<[a := {| blk_storage := blk_storage b; blk_live := true;
                                              blk_content := c |}]> (mem s)))
              else Fault (Undefined BadAccess)
            else Fault (Undefined Dangling)
        | None => Fault (Undefined Dangling)
        end
    end.

Definition holds_number (c : cell) : bool :=
  match c with CUninit | CNumber _ => true | _ => false end.

Definition holds_vtable (c : cell) : bool :=
  match c with CUninit | CVtable _ => true | _ => false end.

(** [write(fd, buf, count)]: descriptor 1 is the output stream and accepts
    every byte; other descriptors are not part of the program. *)
Definition write (fd : Z) (buf : list byte) (count : nat) : M unit :=
  fun s =>
    if decide (count <= length buf)%nat then
      if decide (fd = 1) then
        Ok (tt, {| mem := mem s; avail := avail s;
                   stdout := stdout s ++ take count buf |})
      else Ok (tt, s)
    else Fault (Undefined OutOfBounds).

(** ** Addresses of the objects with static storage *)

Definition printable_iface_addr : addr := 1%positive.
Definition number_printable_vtable_addr : addr := 2%positive.
Definition number_interfaces_addr : addr := 3%positive.
Definition number_class_addr : addr := 4%positive.

(** ** Sizes of the program's structs *)

Definition sizeof_printable_vtable `{Platform} : Z := sizeof_funptr.
Definition sizeof_number `{Platform} : Z := sizeof_int.
Definition sizeof_impl `{Platform} : Z := 2 * sizeof_ptr.

(** ** The number type: [number.c] *)

Definition new_number `{Platform} (value : Z) : M object :=
  (self <- malloc sizeof_number ;;
   store_through self holds_number (CNumber {| representation := value |}) ;;;
   ret {| object_type := Ptr number_class_addr; object_instance := self |})%C.

(** [object * self] is an in-out parameter: the handle goes in and the
    handle as the function leaves it comes out. *)
Definition destroy_number (self : object) : M object :=
  (free (object_instance self) ;;;
   ret {| object_type := object_type self; object_instance := NULL |})%C.

Definition number_print `{Platform} (_self : object) (length : Z) (buf : list byte)
    : M (list byte) :=
  (assert in_number_print (bool_decide (object_type _self = Ptr number_class_addr)) ;;;
   let self := object_instance _self in
   if decide (length > 1) then
     n <- reading (fun m => load_number m self) ;;
     let v := representation n + 48 in
     if decide (v > INT_MAX) then raise (Undefined IntOverflow)
     else match buf with
          | [] => raise (Undefined OutOfBounds)
          | _ :: rest => ret (uchar_of_Z v :: rest)
          end
   else ret buf)%C.

(** A call through a [toString] pointer. *)
Definition call_toString `{Platform} (f : funptr) (self : object) (length : Z)
    (buf : list byte) : M (list byte) :=
  match f with
  | fun_number_print => number_print self length buf
  | fun_null | fun_foreign _ => raise (Undefined BadCall)
  end.

Definition new_runtime_number_print_iface `{Platform} (_self : object) : M impl :=
  (assert in_new_runtime_number_print_iface
     (bool_decide (object_type _self = Ptr number_class_addr)) ;;;
   vtable <- malloc sizeof_printable_vtable ;;
   store_through vtable holds_vtable (CVtable {| toString := fun_number_print |}) ;;;
   ret {| impl_type := Ptr printable_iface_addr; impl_vtable := vtable |})%C.

(** [impl * generated] is an in-out parameter as well. *)
Definition destroy_number_print_iface (generated : impl) : M impl :=
  (free (impl_vtable generated) ;;;
   ret {| impl_type := impl_type generated; impl_vtable := NULL |})%C.

(** ** The polymorphic printer: [println.c] *)

(** [assert(contract.type = &printable_iface)]: the assignment is carried
    out on the local copy of [contract], and its value is what is tested. *)
Definition println_assertion (contract : impl) : impl * bool :=
  let contract' := {| impl_type := Ptr printable_iface_addr;
                      impl_vtable := impl_vtable contract |} in
  (contract', bool_decide (impl_type contract' <> NULL)).

Definition println `{Platform} (self : object) (contract : impl) : M unit :=
  (let '(contract, holds) := println_assertion contract in
   assert in_println holds ;;;
   let v := impl_vtable contract in
   let buf := [x00; x0a] in
   vt <- reading (fun m => load_vtable m v) ;;
   buf <- call_toString (toString vt) self 2 buf ;;
   write 1 buf 2)%C.

(** ** The statically initialised objects *)

Section Statics.
Context `{Platform}.

Definition printable_iface : iface :=
  {| vtable_size := sizeof_printable_vtable |}.

Definition number_printable_vtable : printable_vtable :=
  {| toString := fun_number_print |}.

Definition number_printable_impl : impl :=
  {| impl_type := Ptr printable_iface_addr;
     impl_vtable := Ptr number_printable_vtable_addr |}.

Definition number_interfaces : list impl :=
  [ {| impl_type := Ptr printable_iface_addr;
       impl_vtable := Ptr number_printable_vtable_addr |} ].

Definition sizeof_number_interfaces : Z :=
  Z.of_nat (length number_interfaces) * sizeof_impl.

Definition number_class : class :=
  {| instance_size := sizeof_number;
     interface_count := uchar_of_Z (sizeof_number_interfaces / sizeof_ptr);
     interfaces := Ptr number_interfaces_addr |}.

Definition static_block (c : cell) : block :=
  {| blk_storage := Static; blk_live := true; blk_content := c |}.

Definition program_image : gmap addr block :=
  <[printable_iface_addr := static_block (CIface printable_iface)]>
  (<[number_printable_vtable_addr := static_block (CVtable number_printable_vtable)]>
  (<[number_interfaces_addr := static_block (CImpls number_interfaces)]>
  (<[number_class_addr := static_block (CClass number_class)]> ∅))).

Definition initial_state (budget : nat) : state :=
  {| mem := program_image; avail := budget; stdout := [] |}.

(** ** Example usage: [main] *)

(** The two declarations in the middle of [main]: the local table
    [my_num_vtable], initialised from [number_printable_vtable.toString],
    and the binding [my_printable_implementation] that points to it. *)
Definition my_printable_implementation : M impl :=
  (vt <- reading (fun m => load_vtable m (Ptr number_printable_vtable_addr)) ;;
   my_num_vtable <- auto_var (CVtable {| toString := toString vt |}) ;;
   ret {| impl_type := Ptr printable_iface_addr; impl_vtable := my_num_vtable |})%C.

Definition main : M Z :=
  (num <- new_number 3 ;;
   generated <- new_runtime_number_print_iface num ;;
   println num generated ;;;
   generated <- destroy_number_print_iface generated ;;
   my_printable_implementation <- my_printable_implementation ;;
   println num my_printable_implementation ;;;
   println num number_printable_impl ;;;
   contract <- reading (fun m => has_iface m num (Ptr printable_iface_addr)) ;;
   (if decide (iface_isnull contract = 0) then println num contract else ret tt) ;;;
   num <- destroy_number num ;;
   end_scope (impl_vtable my_printable_implementation) ;;;
   ret 0)%C.
End Statics.

(** The usual 64-bit Unix data model, used for the concrete runs. *)
Definition LP64 : Platform :=
  {| sizeof_int := 4; sizeof_ptr := 8; sizeof_funptr := 8; INT_MAX := 2147483647;
     sizeof_ptr_pos := eq_refl; INT_MAX_min := ltac:(discriminate) |}.

(** * Specification vocabulary *)

(** ** What a class declares *)

(** The bindings a class descriptor declares: the first [interface_count]
    entries of the array [interfaces] points to. *)
Definition binding_sequence (m : gmap addr block) (c : class) : list impl :=
  match load_impls m (interfaces c) with
  | Ok arr => take (uchar_to_nat (interface_count c)) arr
  | Fault _ => []
  end.

Definition declares (m : gmap addr block) (c : class) (interface : ptr) : Prop :=
  exists e, e ∈ binding_sequence m c /\ impl_type e = interface.

(** The array really holds as many entries as the descriptor says. *)
Definition count_in_bounds (m : gmap addr block) (c : class) : Prop :=
  length (binding_sequence m c) = uchar_to_nat (interface_count c).

(** The static objects are in the store, at their addresses. *)
Definition statics_loaded `{Platform} (m : gmap addr block) : Prop :=
  program_image ⊆ m.

(** States and blocks the operations leave behind. *)
Definition printed (s : state) (bytes : list byte) : state :=
  {| mem := mem s; avail := avail s; stdout := stdout s ++ bytes |}.

Definition allocated (c : cell) : block :=
  {| blk_storage := Allocated; blk_live := true; blk_content := c |}.

Definition released (c : cell) : block :=
  {| blk_storage := Allocated; blk_live := false; blk_content := c |}.

(** What a caller can observe of a run: the output stream, or the fault. *)
Definition observable {A} (r : result (A * state)) : result (list byte) :=
  match r with
  | Ok (_, s) => Ok (stdout s)
  | Fault f => Fault f
  end.

(** ** Concrete stores for the examples *)

(** A store that holds the static objects and one live number of value 3. *)
Definition three_addr : addr := 5%positive.

Definition three : object :=
  {| object_type := Ptr number_class_addr; object_instance := Ptr three_addr |}.

Definition three_state (budget : nat) : state :=
  {| mem := <[three_addr := allocated (CNumber {| representation := 3 |})]>
              (program_image (H := LP64));
     avail := budget; stdout := [] |}.

(** The binding made by [new_runtime_number_print_iface] for [three], the
    store it is made in, and both after the release. *)
Definition generated_addr : addr := 6%positive.

Definition generated_binding : impl :=
  {| impl_type := Ptr printable_iface_addr; impl_vtable := Ptr generated_addr |}.

Definition generated_state : state :=
  {| mem := <[generated_addr := allocated (CVtable {| toString := fun_number_print |})]>
              (mem (three_state 0));
     avail := 0; stdout := [] |}.

Definition released_binding : impl :=
  {| impl_type := Ptr printable_iface_addr; impl_vtable := NULL |}.

Definition released_state : state :=
  {| mem := <[generated_addr := released (CVtable {| toString := fun_number_print |})]>
              (mem (three_state 0));
     avail := 0; stdout := [] |}.

(** A store with two interface descriptors of the same shape, and a class
    that implements the first of them only. *)
Definition shape_a : addr := 10%positive.
Definition shape_b : addr := 11%positive.
Definition shape_class_addr : addr := 12%positive.

Definition shape_class : class :=
  {| instance_size := 4; interface_count := x01; interfaces := Ptr 13%positive |}.

Definition shape_store : gmap addr block :=
  <[shape_a := static_block (CIface {| vtable_size := 8 |})]>
  (<[shape_b := static_block (CIface {| vtable_size := 8 |})]>
  (<[shape_class_addr := static_block (CClass shape_class)]>
  (<[13%positive := static_block
       (CImpls [ {| impl_type := Ptr shape_a; impl_vtable := Ptr 14%positive |} ])]>
  (<[14%positive := static_block (CVtable {| toString := fun_number_print |})]> ∅)))).

Definition shape_object : object :=
  {| object_type := Ptr shape_class_addr; object_instance := NULL |}.

(** ** The operations as steps of the state *)



(** Every block of [s] is in [s'] as it is in [s]. *)
Definition frame (s s' : state) : Prop :=
  forall a b, mem s !! a = Some b -> mem s' !! a = Some b.

(** What [main] writes: the line "3" four times. *)
Definition four_lines : list byte := [x33; x0a; x33; x0a; x33; x0a; x33; x0a].

(** A store that holds the static objects and one live number of the given
    value, at the address [three] points to. *)
Definition number_state (value : Z) : state :=
  {| mem := <[three_addr := allocated (CNumber {| representation := value |})]>
              (program_image (H := LP64));
     avail := 0; stdout := [] |}.

(** * Lemmas *)

(** ** Loads fail only by an undefined access *)

Lemma load_fault m p e : load m p = Fault e -> exists u, e = Undefined u.
Proof.
  unfold load. destruct p as [|a]; [intros [= <-]; eauto|].
  destruct (m !! a) as [b|]; [|intros [= <-]; eauto].
  destruct (blk_live b); [discriminate|intros [= <-]; eauto].
Qed.

Lemma load_vtable_fault m p e : load_vtable m p = Fault e -> exists u, e = Undefined u.
Proof.
  unfold load_vtable. destruct (load m p) as [c|f] eqn:Hl; cbn.
  - destruct c; intros [= <-]; eauto.
  - intros [= <-]. eapply load_fault; eassumption.
Qed.

Lemma load_number_fault m p e : load_number m p = Fault e -> exists u, e = Undefined u.
Proof.
  unfold load_number. destruct (load m p) as [c|f] eqn:Hl; cbn.
  - destruct c; intros [= <-]; eauto.
  - intros [= <-]. eapply load_fault; eassumption.
Qed.

(** ** The scan *)

Lemma has_iface_from_cases m c x arr n i :
  load_impls m (interfaces c) = Ok arr ->
  (i <= length arr)%nat ->
  match has_iface_from m c x n i with
  | Ok r =>
      (r ∈ take n (drop i arr) /\ impl_type r = x) \/
      (r = null_impl /\ (forall e, e ∈ take n (drop i arr) -> impl_type e <> x)
       /\ (i + n <= length arr)%nat)
  | Fault f =>
      f = Undefined OutOfBounds
      /\ (forall e, e ∈ take n (drop i arr) -> impl_type e <> x)
      /\ (length arr < i + n)%nat
  end.
Proof.
  intros Hload. revert i. induction n as [|n IH]; intros i Hi0; simpl.
  - right. split; [reflexivity|]. split; [|lia].
    intros e He. rewrite take_0 in He. inversion He.
  - rewrite Hload. simpl. destruct (arr !! i) as [e|] eqn:Hi.
    + assert (Hlt : (i < length arr)%nat) by (eapply lookup_lt_Some; eauto).
      rewrite (drop_S _ _ _ Hi). simpl.
      destruct (decide (impl_type e = x)) as [Heq|Hne].
      * left. split; [left|assumption].
      * specialize (IH (S i) Hlt).
        destruct (has_iface_from m c x n (S i)) as [r|f].
        -- destruct IH as [[Hin Hx]|(-> & Hall & Hb)].
           ++ left. split; [right; assumption|assumption].
           ++ right. split; [reflexivity|]. split; [|lia].
              intros e' He'. inversion He'; subst; auto.
        -- destruct IH as (-> & Hall & Hb). split; [reflexivity|].
           split; [|lia]. intros e' He'. inversion He'; subst; auto.
    + apply lookup_ge_None in Hi. split; [reflexivity|]. split; [|lia].
      rewrite drop_ge by lia. intros e He. rewrite take_nil in He. inversion He.
Qed.

Lemma has_iface_from_no_array m c x n i f :
  load_impls m (interfaces c) = Fault f ->
  has_iface_from m c x n i = match n with O => Ok null_impl | S _ => Fault f end.
Proof. intros Hload. destruct n; simpl; [reflexivity|]. rewrite Hload. reflexivity. Qed.

(** Whatever the store holds, a binding that comes back is the sentinel or
    carries the queried descriptor. *)
Lemma has_iface_from_type m c x n i r :
  has_iface_from m c x n i = Ok r -> r = null_impl \/ impl_type r = x.
Proof.
  revert i. induction n as [|n IH]; intros i; simpl.
  - intros [= <-]. now left.
  - destruct (load_impls m (interfaces c)) as [arr|f]; simpl; [|discriminate].
    destruct (arr !! i) as [e|]; [|discriminate].
    destruct (decide (impl_type e = x)) as [Heq|Hne].
    + intros [= <-]. now right.
    + apply IH.
Qed.

Lemma has_iface_type m self x r :
  has_iface m self x = Ok r -> r = null_impl \/ impl_type r = x.
Proof.
  unfold has_iface. destruct (load_class m (object_type self)) as [c|f]; simpl;
    [|discriminate].
  apply has_iface_from_type.
Qed.

Lemma has_iface_cases m self x c :
  load_class m (object_type self) = Ok c ->
  match has_iface m self x with
  | Ok r =>
      (r ∈ binding_sequence m c /\ impl_type r = x) \/
      (r = null_impl /\ ~ declares m c x /\ count_in_bounds m c)
  | Fault f => ~ declares m c x /\ ~ count_in_bounds m c
  end.
Proof.
  intros Hc. unfold has_iface, declares, count_in_bounds, binding_sequence.
  rewrite Hc. simpl.
  destruct (load_impls m (interfaces c)) as [arr|f] eqn:Hload.
  - pose proof (has_iface_from_cases m c x arr
                  (uchar_to_nat (interface_count c)) 0 Hload ltac:(lia)) as H.
    rewrite drop_0 in H. rewrite length_take.
    destruct (has_iface_from m c x (uchar_to_nat (interface_count c)) 0) as [r|f].
    + destruct H as [H|(-> & Hall & Hb)]; [left; exact H|].
      right. split; [reflexivity|]. split; [|lia].
      intros (e & He & Hx). exact (Hall e He Hx).
    + destruct H as (_ & Hall & Hb). split; [|lia].
      intros (e & He & Hx). exact (Hall e He Hx).
  - rewrite (has_iface_from_no_array _ _ _ _ _ _ Hload).
    destruct (uchar_to_nat (interface_count c)) as [|n].
    + right. split; [reflexivity|]. split; [|reflexivity].
      intros (e & He & _). inversion He.
    + split; [|simpl; lia]. intros (e & He & _). inversion He.
Qed.

(** ** Resolution correctness *)

(** C1.  For an object whose class descriptor is [c] and for every interface
    descriptor (the address [a] of one): [has_iface] returns a binding other
    than the null sentinel exactly when [c] declares the interface among its
    bindings; such a binding carries the queried descriptor in its [type]
    field; when the array holds [interface_count] entries the lookup always
    returns, the sentinel exactly when the interface is not declared; and
    when no declared binding has a null table, [iface_isnull] tells the two
    outcomes apart. *)
Theorem has_iface_resolution m self a c :
  load_class m (object_type self) = Ok c ->
  ((exists r, has_iface m self (Ptr a) = Ok r /\ r <> null_impl)
     <-> declares m c (Ptr a))
  /\ (forall r, has_iface m self (Ptr a) = Ok r -> r <> null_impl ->
        impl_type r = Ptr a)
  /\ (count_in_bounds m c ->
        exists r, has_iface m self (Ptr a) = Ok r
                  /\ (r = null_impl <-> ~ declares m c (Ptr a)))
  /\ ((forall e, e ∈ binding_sequence m c -> impl_vtable e <> NULL) ->
        forall r, has_iface m self (Ptr a) = Ok r ->
                  (iface_isnull r = 0 <-> r <> null_impl)).
Proof.
  intros Hc. pose proof (has_iface_cases m self (Ptr a) c Hc) as H.
  assert (Hnn : forall r : impl, impl_type r = Ptr a -> r <> null_impl)
    by (intros r Hr ->; discriminate).
  destruct (has_iface m self (Ptr a)) as [r|f].
  - destruct H as [[Hin Hx]|(-> & Hnd & Hb)].
    + assert (Hd : declares m c (Ptr a)) by (exists r; split; assumption).
      split; [|split; [|split]].
      * split; [intros _; exact Hd|].
        intros _. exists r. split; [reflexivity|]. apply Hnn, Hx.
      * intros r' [= <-] _. exact Hx.
      * intros _. exists r. split; [reflexivity|]. split.
        -- intros ->. discriminate.
        -- intros Hnd. contradiction.
      * intros Hv r' [= <-]. unfold iface_isnull.
        destruct (decide (impl_vtable r = NULL)) as [Hv0|Hv0].
        -- exfalso. exact (Hv r Hin Hv0).
        -- split; [intros _; apply Hnn, Hx|reflexivity].
    + split; [|split; [|split]].
      * split; [|intros Hd; contradiction].
        intros (r & [= <-] & Hr). congruence.
      * intros r [= <-] Hr. congruence.
      * intros _. exists null_impl. split; [reflexivity|]. split; auto.
      * intros Hv r [= <-]. unfold iface_isnull. simpl.
        split; [discriminate|congruence].
  - destruct H as [Hnd Hb]. split; [|split; [|split]].
    + split; [|intros Hd; contradiction].
      intros (r & Hr & _). discriminate.
    + intros r Hr. discriminate.
    + intros Hb'. contradiction.
    + intros _ r Hr. discriminate.
Qed.

(** ** The static objects in the store *)

Section StaticFacts.
Context `{Platform}.

Lemma number_interface_count : interface_count number_class = x02.
Proof.
  unfold number_class, sizeof_number_interfaces, sizeof_impl, number_interfaces.
  cbn [interface_count length].
  change (Z.of_nat 1) with 1. rewrite Z.mul_1_l.
  rewrite Z.div_mul by (pose proof sizeof_ptr_pos; lia).
  reflexivity.
Qed.

Lemma program_image_static a b :
  program_image !! a = Some b -> blk_storage b = Static.
Proof.
  unfold program_image. intros Hb.
  repeat (apply lookup_insert_Some in Hb as [[_ <-]|[_ Hb]]; [reflexivity|]).
  rewrite lookup_empty in Hb. discriminate.
Qed.

Lemma statics_loaded_image : statics_loaded program_image.
Proof. unfold statics_loaded. reflexivity. Qed.

Lemma statics_loaded_fresh m a b :
  statics_loaded m -> m !! a = None -> statics_loaded (<[a := b]> m).
Proof.
  unfold statics_loaded. intros Hs Ha. apply insert_subseteq_r; [|assumption].
  eapply lookup_weaken_None; eassumption.
Qed.

Lemma statics_loaded_overwrite m a b b' :
  statics_loaded m -> m !! a = Some b -> blk_storage b <> Static ->
  statics_loaded (<[a := b']> m).
Proof.
  unfold statics_loaded. intros Hs Ha Hst. apply insert_subseteq_r; [|assumption].
  destruct (program_image !! a) as [b0|] eqn:Hb0; [|reflexivity].
  exfalso. apply Hst. pose proof (lookup_weaken _ _ _ _ Hb0 Hs) as Hm.
  rewrite Ha in Hm. injection Hm as ->. eapply program_image_static; eassumption.
Qed.

Lemma statics_load m a c :
  statics_loaded m -> program_image !! a = Some (static_block c) ->
  load m (Ptr a) = Ok c.
Proof.
  intros Hs Ha. unfold load. rewrite (lookup_weaken _ _ _ _ Ha Hs). reflexivity.
Qed.

Lemma statics_class m :
  statics_loaded m -> load_class m (Ptr number_class_addr) = Ok number_class.
Proof.
  intros Hs. unfold load_class.
  rewrite (statics_load m _ (CClass number_class) Hs); reflexivity.
Qed.

Lemma statics_interfaces m :
  statics_loaded m ->
  load_impls m (Ptr number_interfaces_addr) = Ok number_interfaces.
Proof.
  intros Hs. unfold load_impls.
  rewrite (statics_load m _ (CImpls number_interfaces) Hs); reflexivity.
Qed.

Lemma statics_vtable m :
  statics_loaded m ->
  load_vtable m (Ptr number_printable_vtable_addr) = Ok number_printable_vtable.
Proof.
  intros Hs. unfold load_vtable.
  rewrite (statics_load m _ (CVtable number_printable_vtable) Hs); reflexivity.
Qed.

Lemma statics_iface m :
  statics_loaded m ->
  load_iface m (Ptr printable_iface_addr) = Ok printable_iface.
Proof.
  intros Hs. unfold load_iface.
  rewrite (statics_load m _ (CIface printable_iface) Hs); reflexivity.
Qed.

(** Resolution on an object of class [number_class]. *)
Lemma number_has_iface_printable m self :
  statics_loaded m -> object_type self = Ptr number_class_addr ->
  has_iface m self (Ptr printable_iface_addr) = Ok number_printable_impl.
Proof.
  intros Hs Ht. unfold has_iface. rewrite Ht, (statics_class m Hs).
  cbn [rbind]. rewrite number_interface_count.
  change (uchar_to_nat x02) with 2%nat. cbn [has_iface_from].
  change (interfaces number_class) with (Ptr number_interfaces_addr).
  rewrite (statics_interfaces m Hs). reflexivity.
Qed.

Lemma number_has_iface_other m self x :
  statics_loaded m -> object_type self = Ptr number_class_addr ->
  x <> Ptr printable_iface_addr ->
  has_iface m self x = Fault (Undefined OutOfBounds).
Proof.
  intros Hs Ht Hx. unfold has_iface. rewrite Ht, (statics_class m Hs).
  cbn [rbind]. rewrite number_interface_count.
  change (uchar_to_nat x02) with 2%nat. cbn [has_iface_from].
  change (interfaces number_class) with (Ptr number_interfaces_addr).
  rewrite (statics_interfaces m Hs). cbn.
  destruct (decide (Ptr printable_iface_addr = x)) as [Heq|Hne]; [congruence|].
  reflexivity.
Qed.
End StaticFacts.

(** ** Effects of the operations *)

Section Effects.
Context `{Platform}.

(** [println] on a number object, through any binding whose table holds
    [number_print]. *)
Lemma println_number s self contract n :
  load_vtable (mem s) (impl_vtable contract) = Ok {| toString := fun_number_print |} ->
  object_type self = Ptr number_class_addr ->
  load_number (mem s) (object_instance self) = Ok n ->
  println self contract s =
    if decide (representation n + 48 > INT_MAX) then Fault (Undefined IntOverflow)
    else Ok (tt, printed s [uchar_of_Z (representation n + 48); x0a]).
Proof.
  intros Hv Ht Hn.
  unfold println, println_assertion, bind, assert, reading.
  cbn [impl_vtable impl_type]. rewrite bool_decide_eq_true_2 by discriminate.
  unfold ret at 1. rewrite Hv. cbn [toString call_toString].
  unfold number_print, bind, assert, reading.
  rewrite Ht. rewrite bool_decide_eq_true_2 by reflexivity.
  unfold ret at 1.
  destruct (decide (2 > 1)) as [_|Hgt]; [|lia].
  rewrite Hn.
  destruct (decide (representation n + 48 > INT_MAX)); reflexivity.
Qed.

Lemma new_number_Ok s k value :
  avail s = S k ->
  new_number value s =
    Ok ({| object_type := Ptr number_class_addr;
           object_instance := Ptr (fresh (dom (mem s))) |},
        {| mem := <[fresh (dom (mem s)) :=
                      allocated (CNumber {| representation := value |})]> (mem s);
           avail := k; stdout := stdout s |}).
Proof.
  intros Hk. unfold new_number, bind, malloc, store_through, ret. rewrite Hk. cbn.
  rewrite lookup_insert_eq. cbn. unfold with_mem. cbn.
  rewrite insert_insert_eq. reflexivity.
Qed.

Lemma new_number_exhausted s value :
  avail s = O -> new_number value s = Fault (Undefined NullDeref).
Proof. intros Hk. unfold new_number, bind, malloc. rewrite Hk. reflexivity. Qed.

Lemma new_runtime_number_print_iface_Ok s k self :
  object_type self = Ptr number_class_addr ->
  avail s = S k ->
  new_runtime_number_print_iface self s =
    Ok ({| impl_type := Ptr printable_iface_addr;
           impl_vtable := Ptr (fresh (dom (mem s))) |},
        {| mem := <[fresh (dom (mem s)) :=
                      allocated (CVtable {| toString := fun_number_print |})]> (mem s);
           avail := k; stdout := stdout s |}).
Proof.
  intros Ht Hk.
  unfold new_runtime_number_print_iface, bind, assert, malloc, store_through, ret.
  rewrite Ht. rewrite bool_decide_eq_true_2 by reflexivity. rewrite Hk. cbn.
  rewrite lookup_insert_eq. cbn. unfold with_mem. cbn.
  rewrite insert_insert_eq. reflexivity.
Qed.

Lemma my_printable_implementation_Ok s :
  statics_loaded (mem s) ->
  my_printable_implementation s =
    Ok ({| impl_type := Ptr printable_iface_addr;
           impl_vtable := Ptr (fresh (dom (mem s))) |},
        with_mem s (<[fresh (dom (mem s)) :=
                        {| blk_storage := Automatic; blk_live := true;
                           blk_content := CVtable {| toString := fun_number_print |} |}]>
                      (mem s))).
Proof.
  intros Hs. unfold my_printable_implementation, bind, reading, auto_var, ret.
  rewrite (statics_vtable _ Hs). reflexivity.
Qed.

(** A fresh block leaves every other load as it was. *)
Lemma fresh_lookup_None (m : gmap addr block) : m !! fresh (dom m) = None.
Proof. apply not_elem_of_dom, is_fresh. Qed.

Lemma load_insert_fresh (m : gmap addr block) b p c :
  load m p = Ok c -> load (<[fresh (dom m) := b]> m) p = Ok c.
Proof.
  destruct p as [|a]; [discriminate|]. unfold load.
  destruct (m !! a) as [b0|] eqn:Ha; [|discriminate]. intros Hl.
  rewrite lookup_insert_ne; [rewrite Ha; exact Hl|].
  intros <-. rewrite fresh_lookup_None in Ha. discriminate.
Qed.

Lemma load_number_insert_fresh (m : gmap addr block) b p n :
  load_number m p = Ok n -> load_number (<[fresh (dom m) := b]> m) p = Ok n.
Proof.
  unfold load_number. destruct (load m p) as [c|f] eqn:Hl; [|discriminate].
  rewrite (load_insert_fresh m b p c Hl). trivial.
Qed.

Lemma load_insert_eq (m : gmap addr block) a b :
  blk_live b = true -> load (<[a := b]> m) (Ptr a) = Ok (blk_content b).
Proof. intros Hb. unfold load. rewrite lookup_insert_eq, Hb. reflexivity. Qed.
End Effects.

(** ** [main], run *)

Example main_prints_four_lines :
  match main (H := LP64) (initial_state (H := LP64) 2) with
  | Ok (status, s) =>
      status = 0 /\ stdout s = [x33; x0a; x33; x0a; x33; x0a; x33; x0a]
  | Fault _ => False
  end.
Proof. vm_compute. split; reflexivity. Qed.

(** Neither [new_number] nor [new_runtime_number_print_iface] tests what
    [malloc] returns. *)
Example main_out_of_memory :
  main (H := LP64) (initial_state (H := LP64) 0) = Fault (Undefined NullDeref)
  /\ main (H := LP64) (initial_state (H := LP64) 1) = Fault (Undefined NullDeref).
Proof. split; reflexivity. Qed.

Lemma has_iface_resolution_witness :
  (exists r, has_iface shape_store shape_object (Ptr shape_a) = Ok r /\ r <> null_impl)
  /\ has_iface shape_store shape_object (Ptr shape_b) = Ok null_impl.
Proof.
  pose proof (has_iface_resolution shape_store shape_object shape_a shape_class
                eq_refl) as (Ha & _).
  pose proof (has_iface_resolution shape_store shape_object shape_b shape_class
                eq_refl) as (_ & _ & Hb & _).
  split.
  - apply Ha. exists {| impl_type := Ptr shape_a; impl_vtable := Ptr 14%positive |}.
    split; [left|reflexivity].
  - destruct (Hb eq_refl) as (r & Hr & Hnull). rewrite Hr. f_equal.
    apply Hnull. intros (e & He & Hx).
    apply list_elem_of_singleton in He. subst e. discriminate.
Defined.

(** ** The assertion in [println] *)

(** C2.  The check at the head of [println] holds for every binding: it
    stores [&printable_iface] into the local copy and tests the stored
    pointer, which is not null.  So no run of [println] stops at that
    assertion, and the [type] field the caller passed has no influence on
    what [println] does. *)
Theorem println_assertion_tautology `{Platform} (contract : impl) :
  println_assertion contract =
    ({| impl_type := Ptr printable_iface_addr; impl_vtable := impl_vtable contract |},
     true)
  /\ (forall self s, println self contract s <> Fault (AssertionFailed in_println))
  /\ (forall t self s,
        println self {| impl_type := t; impl_vtable := impl_vtable contract |} s
        = println self contract s).
Proof.
  split; [reflexivity|]. split; [|reflexivity].
  intros self s. unfold println, println_assertion, bind, assert, reading.
  cbn [impl_vtable impl_type]. rewrite bool_decide_eq_true_2 by discriminate.
  unfold ret at 1.
  destruct (load_vtable (mem s) (impl_vtable contract)) as [[f]|e] eqn:Hv.
  2:{ apply load_vtable_fault in Hv as [u ->]. discriminate. }
  cbn [toString]. destruct f; cbn [call_toString]; try discriminate.
  unfold number_print, bind, assert, reading.
  destruct (bool_decide (object_type self = Ptr number_class_addr)); [|discriminate].
  unfold ret at 1. destruct (decide (2 > 1)) as [_|Hgt]; [|lia].
  destruct (load_number (mem s) (object_instance self)) as [n|e] eqn:Hn.
  2:{ apply load_number_fault in Hn as [u ->]. discriminate. }
  destruct (decide (representation n + 48 > INT_MAX)); [discriminate|].
  unfold ret, write. cbn. discriminate.
Qed.

Lemma println_assertion_accepts_mismatch :
  println (H := LP64)
    {| object_type := Ptr number_class_addr; object_instance := Ptr 5%positive |}
    {| impl_type := Ptr 77%positive; impl_vtable := Ptr number_printable_vtable_addr |}
    {| mem := <[5%positive := allocated (CNumber {| representation := 3 |})]>
                (program_image (H := LP64));
       avail := 0; stdout := [] |}
  = Ok (tt, {| mem := <[5%positive := allocated (CNumber {| representation := 3 |})]>
                        (program_image (H := LP64));
               avail := 0; stdout := [x33; x0a] |}).
Proof. reflexivity. Qed.

(** ** The bounds of the scan on the number class *)

(** C3.  [number_class] does not declare as many bindings as
    [number_interfaces] holds: the initialiser divides the size of the array
    by the size of a pointer, and an [impl] is two pointers wide, so
    [interface_count] is 2 for an array of one entry.  A lookup of any
    interface other than the printable one reads [number_interfaces[1]],
    past the end of the array. *)
Theorem number_class_count_exceeds_array `{Platform} m self a :
  statics_loaded m ->
  object_type self = Ptr number_class_addr ->
  a <> printable_iface_addr ->
  uchar_to_nat (interface_count number_class) = 2%nat
  /\ length number_interfaces = 1%nat
  /\ ~ count_in_bounds m number_class
  /\ has_iface m self (Ptr a) = Fault (Undefined OutOfBounds).
Proof.
  intros Hs Ht Ha.
  assert (Hc : uchar_to_nat (interface_count number_class) = 2%nat)
    by (rewrite number_interface_count; reflexivity).
  split; [exact Hc|]. split; [reflexivity|]. split.
  - unfold count_in_bounds, binding_sequence.
    change (interfaces number_class) with (Ptr number_interfaces_addr).
    rewrite (statics_interfaces m Hs), Hc. cbn. lia.
  - apply number_has_iface_other; [assumption..|congruence].
Qed.

Lemma number_class_count_exceeds_array_witness :
  has_iface (program_image (H := LP64))
    {| object_type := Ptr number_class_addr; object_instance := NULL |}
    (Ptr 9%positive)
  = Fault (Undefined OutOfBounds).
Proof.
  apply (number_class_count_exceeds_array (H := LP64) program_image
           {| object_type := Ptr number_class_addr; object_instance := NULL |}
           9%positive).
  - apply statics_loaded_image.
  - reflexivity.
  - discriminate.
Defined.

(** ** Construct, resolve, print *)

Lemma construct_resolve_print `{Platform} s k value :
  statics_loaded (mem s) -> avail s = S k -> value + 48 <= INT_MAX ->
  exists num s1 contract s2,
    new_number value s = Ok (num, s1)
    /\ has_iface (mem s1) num (Ptr printable_iface_addr) = Ok contract
    /\ iface_isnull contract = 0
    /\ println num contract s1 = Ok (tt, s2)
    /\ stdout s2 = stdout s ++ [uchar_of_Z (value + 48); x0a].
Proof.
  intros Hs Hk Hv. eexists _, _, number_printable_impl, _.
  split; [apply new_number_Ok; exact Hk|].
  assert (Hs1 : statics_loaded
                  (<[fresh (dom (mem s)) :=
                       allocated (CNumber {| representation := value |})]> (mem s)))
    by (apply statics_loaded_fresh; [exact Hs|apply fresh_lookup_None]).
  split; [apply number_has_iface_printable; [exact Hs1|reflexivity]|].
  split; [reflexivity|].
  erewrite println_number with (n := {| representation := value |}).
  - cbn [representation].
    destruct (decide (value + 48 > INT_MAX)) as [Hgt|_]; [lia|].
    split; reflexivity.
  - cbn [mem impl_vtable number_printable_impl]. apply (statics_vtable _ Hs1).
  - reflexivity.
  - cbn [mem object_instance]. unfold load_number.
    rewrite load_insert_eq by reflexivity. reflexivity.
Qed.

(** C4.  A number constructed with value 3, resolved for its printable
    capability and printed through [println], appends exactly the two bytes
    ['3'] and newline to the output stream; constructed with value 0, the two
    bytes ['0'] and newline. *)
Theorem number_println_output `{Platform} s k :
  statics_loaded (mem s) -> avail s = S k ->
  (exists num s1 contract s2,
     new_number 3 s = Ok (num, s1)
     /\ has_iface (mem s1) num (Ptr printable_iface_addr) = Ok contract
     /\ iface_isnull contract = 0
     /\ println num contract s1 = Ok (tt, s2)
     /\ stdout s2 = stdout s ++ [x33; x0a])
  /\ (exists num s1 contract s2,
        new_number 0 s = Ok (num, s1)
        /\ has_iface (mem s1) num (Ptr printable_iface_addr) = Ok contract
        /\ iface_isnull contract = 0
        /\ println num contract s1 = Ok (tt, s2)
        /\ stdout s2 = stdout s ++ [x30; x0a]).
Proof.
  intros Hs Hk. pose proof INT_MAX_min as Hmax. split.
  - apply (construct_resolve_print s k 3 Hs Hk). lia.
  - apply (construct_resolve_print s k 0 Hs Hk). lia.
Qed.

Lemma number_println_output_witness :
  exists num s1 contract s2,
    new_number (H := LP64) 3 (initial_state (H := LP64) 1) = Ok (num, s1)
    /\ has_iface (mem s1) num (Ptr printable_iface_addr) = Ok contract
    /\ iface_isnull contract = 0
    /\ println (H := LP64) num contract s1 = Ok (tt, s2)
    /\ stdout s2 = [x33; x0a].
Proof.
  apply (number_println_output (H := LP64) (initial_state (H := LP64) 1) 0).
  - apply statics_loaded_image.
  - reflexivity.
Defined.

(** ** Identity, not shape *)

(** C5.  Two distinct interface descriptors with the same [vtable_size]
    never match each other: a lookup of the one never returns a binding of
    the other, and on a class that declares only the other it returns the
    null sentinel. *)
Theorem has_iface_identity_not_shape m self c a b da db r :
  a <> b ->
  load_iface m (Ptr a) = Ok da ->
  load_iface m (Ptr b) = Ok db ->
  vtable_size da = vtable_size db ->
  load_class m (object_type self) = Ok c ->
  has_iface m self (Ptr b) = Ok r ->
  impl_type r <> Ptr a /\ (~ declares m c (Ptr b) -> r = null_impl).
Proof.
  intros Hab _ _ _ Hc Hr. split.
  - destruct (has_iface_type _ _ _ _ Hr) as [-> | ->]; [discriminate|congruence].
  - intros Hnd. pose proof (has_iface_cases m self (Ptr b) c Hc) as H.
    rewrite Hr in H. destruct H as [[Hin Hx]|[-> _]]; [|reflexivity].
    exfalso. apply Hnd. exists r. split; assumption.
Qed.

Lemma has_iface_identity_not_shape_witness :
  declares shape_store shape_class (Ptr shape_a)
  /\ has_iface shape_store shape_object (Ptr shape_b) = Ok null_impl
  /\ impl_type null_impl <> Ptr shape_a.
Proof.
  split; [|split].
  - exists {| impl_type := Ptr shape_a; impl_vtable := Ptr 14%positive |}.
    split; [left|reflexivity].
  - reflexivity.
  - apply (has_iface_identity_not_shape shape_store shape_object shape_class
             shape_a shape_b {| vtable_size := 8 |} {| vtable_size := 8 |} null_impl).
    + discriminate.
    + reflexivity.
    + reflexivity.
    + reflexivity.
    + reflexivity.
    + reflexivity.
Defined.

(** ** Dispatch through the three kinds of binding *)

(** C6.  For a live number object, the static binding
    [number_printable_impl], a binding made by
    [new_runtime_number_print_iface] and the binding assembled by hand in
    [main] all hold [number_print] in their table, and [println] through
    each of them has the same observable outcome: the digit and a newline
    appended to the output (or, for all three alike, the overflow of
    [representation + '0']). *)
Theorem dispatch_determinism `{Platform} s k num n :
  statics_loaded (mem s) ->
  avail s = S k ->
  object_type num = Ptr number_class_addr ->
  load_number (mem s) (object_instance num) = Ok n ->
  exists generated s1 duck s2,
    new_runtime_number_print_iface num s = Ok (generated, s1)
    /\ my_printable_implementation s = Ok (duck, s2)
    /\ load_vtable (mem s) (impl_vtable number_printable_impl)
       = Ok {| toString := fun_number_print |}
    /\ load_vtable (mem s1) (impl_vtable generated)
       = Ok {| toString := fun_number_print |}
    /\ load_vtable (mem s2) (impl_vtable duck)
       = Ok {| toString := fun_number_print |}
    /\ observable (println num generated s1)
       = observable (println num number_printable_impl s)
    /\ observable (println num duck s2)
       = observable (println num number_printable_impl s)
    /\ observable (println num number_printable_impl s)
       = if decide (representation n + 48 > INT_MAX)
         then Fault (Undefined IntOverflow)
         else Ok (stdout s ++ [uchar_of_Z (representation n + 48); x0a]).
Proof.
  intros Hs Hk Ht Hn. eexists _, _, _, _.
  split; [apply new_runtime_number_print_iface_Ok; eassumption|].
  split; [apply my_printable_implementation_Ok; assumption|].
  assert (Hstatic : load_vtable (mem s) (impl_vtable number_printable_impl)
                    = Ok {| toString := fun_number_print |})
    by (apply statics_vtable; assumption).
  split; [exact Hstatic|].
  cbn [mem impl_vtable with_mem].
  assert (Hload : forall b : block,
             blk_live b = true ->
             blk_content b = CVtable {| toString := fun_number_print |} ->
             load_vtable (<[fresh (dom (mem s)) := b]> (mem s))
               (Ptr (fresh (dom (mem s))))
             = Ok {| toString := fun_number_print |}).
  { intros b Hb Hcont. unfold load_vtable. rewrite load_insert_eq by exact Hb.
    rewrite Hcont. reflexivity. }
  split; [apply Hload; reflexivity|]. split; [apply Hload; reflexivity|].
  rewrite (println_number s num number_printable_impl n Hstatic Ht Hn).
  split; [|split].
  - erewrite println_number with (n := n); [| |exact Ht|].
    + destruct (decide (representation n + 48 > INT_MAX)); reflexivity.
    + apply Hload; reflexivity.
    + cbn [mem]. apply load_number_insert_fresh. exact Hn.
  - erewrite println_number with (n := n); [| |exact Ht|].
    + destruct (decide (representation n + 48 > INT_MAX)); reflexivity.
    + apply Hload; reflexivity.
    + cbn [mem with_mem]. apply load_number_insert_fresh. exact Hn.
  - destruct (decide (representation n + 48 > INT_MAX)); reflexivity.
Qed.

Lemma three_state_statics budget :
  statics_loaded (H := LP64) (mem (three_state budget)).
Proof. apply statics_loaded_fresh; [apply statics_loaded_image|reflexivity]. Qed.

Lemma dispatch_determinism_witness :
  exists generated s1 duck s2,
    new_runtime_number_print_iface (H := LP64) three (three_state 1) = Ok (generated, s1)
    /\ my_printable_implementation (three_state 1) = Ok (duck, s2)
    /\ observable (println (H := LP64) three number_printable_impl (three_state 1))
       = Ok [x33; x0a]
    /\ observable (println (H := LP64) three generated s1) = Ok [x33; x0a]
    /\ observable (println (H := LP64) three duck s2) = Ok [x33; x0a].
Proof.
  destruct (dispatch_determinism (H := LP64) (three_state 1) 0 three
              {| representation := 3 |} (three_state_statics 1)
              eq_refl eq_refl eq_refl)
    as (generated & s1 & duck & s2 & Hg & Hd & _ & _ & _ & E1 & E2 & E3).
  exists generated, s1, duck, s2.
  rewrite E1, E2, E3. repeat split; assumption.
Defined.

(** ** Release and destruction *)

Lemma free_allocated s a c :
  mem s !! a = Some (allocated c) ->
  free (Ptr a) s = Ok (tt, with_mem s (<[a := released c]> (mem s))).
Proof. intros Ha. unfold free. rewrite Ha. reflexivity. Qed.

Lemma free_released s a c :
  mem s !! a = Some (released c) -> free (Ptr a) s = Fault (Undefined BadFree).
Proof. intros Ha. unfold free. rewrite Ha. reflexivity. Qed.

Lemma number_print_null_instance `{Platform} self length buf s :
  object_type self = Ptr number_class_addr ->
  object_instance self = NULL ->
  length > 1 ->
  number_print self length buf s = Fault (Undefined NullDeref).
Proof.
  intros Ht Hi Hl. unfold number_print, bind, assert, reading.
  rewrite Ht, Hi. rewrite bool_decide_eq_true_2 by reflexivity. unfold ret at 1.
  destruct (decide (length > 1)) as [_|Hn]; [reflexivity|contradiction].
Qed.

(** C7, as the specification words it, fails: the second release of the
    same binding returns normally and changes nothing; no fault is raised. *)
Lemma second_release_not_detected :
  new_runtime_number_print_iface (H := LP64) three (three_state 1)
    = Ok (generated_binding, generated_state)
  /\ destroy_number_print_iface generated_binding generated_state
     = Ok (released_binding, released_state)
  /\ destroy_number_print_iface released_binding released_state
     = Ok (released_binding, released_state).
Proof. repeat split; vm_compute; reflexivity. Qed.

(** C7, amended.  Releasing a runtime-generated binding frees its table and
    nulls the binding's table field, touching nothing else.  A second
    release through the same, now nulled, binding is [free(NULL)]: it
    returns normally with the store unchanged, so the table is freed once
    and the repetition goes unreported.  A release through a stale copy that
    still holds the table pointer frees a dead block, which is undefined. *)
Theorem release_generated_binding s generated a c :
  impl_vtable generated = Ptr a ->
  mem s !! a = Some (allocated c) ->
  exists generated' s',
    destroy_number_print_iface generated s = Ok (generated', s')
    /\ generated' = {| impl_type := impl_type generated; impl_vtable := NULL |}
    /\ s' = with_mem s (<[a := released c]> (mem s))
    /\ destroy_number_print_iface generated' s' = Ok (generated', s')
    /\ destroy_number_print_iface generated s' = Fault (Undefined BadFree).
Proof.
  intros Hv Ha. eexists _, _.
  split; [unfold destroy_number_print_iface, bind; rewrite Hv,
            (free_allocated s a c Ha); reflexivity|].
  split; [reflexivity|]. split; [reflexivity|]. split; [reflexivity|].
  unfold destroy_number_print_iface, bind. rewrite Hv.
  rewrite (free_released _ a c); [reflexivity|]. cbn. apply lookup_insert_eq.
Qed.

Lemma release_generated_binding_witness :
  exists generated' s',
    destroy_number_print_iface generated_binding generated_state = Ok (generated', s')
    /\ impl_vtable generated' = NULL
    /\ mem s' !! generated_addr = Some (released (CVtable {| toString := fun_number_print |}))
    /\ destroy_number_print_iface generated' s' = Ok (generated', s').
Proof.
  destruct (release_generated_binding generated_state generated_binding generated_addr
              (CVtable {| toString := fun_number_print |}) eq_refl eq_refl)
    as (g & s' & Hd & -> & -> & Hagain & _).
  eexists _, _. split; [exact Hd|]. split; [reflexivity|]. split; [reflexivity|].
  exact Hagain.
Defined.

(** C8, as the specification words it, fails: after [destroy_number] a
    lookup on the handle is carried out and returns the class's binding. *)
Lemma resolve_after_destroy_not_rejected :
  destroy_number three (three_state 0)
    = Ok ({| object_type := Ptr number_class_addr; object_instance := NULL |},
          {| mem := <[three_addr := released (CNumber {| representation := 3 |})]>
                      (program_image (H := LP64));
             avail := 0; stdout := [] |})
  /\ has_iface
       (<[three_addr := released (CNumber {| representation := 3 |})]>
          (program_image (H := LP64)))
       {| object_type := Ptr number_class_addr; object_instance := NULL |}
       (Ptr printable_iface_addr)
     = Ok number_printable_impl.
Proof. split; vm_compute; reflexivity. Qed.

(** C8, amended.  [destroy_number] frees the payload and nulls the handle's
    instance reference; nothing afterwards checks for it.  [has_iface] on the
    destroyed handle gives what it gave before, for every interface, and
    returns the printable binding.  [number_print], reached directly or
    through [println], passes its class assertion and then reads through the
    null instance reference. *)
Theorem use_after_destroy_unchecked `{Platform} s num a c :
  statics_loaded (mem s) ->
  object_type num = Ptr number_class_addr ->
  object_instance num = Ptr a ->
  mem s !! a = Some (allocated c) ->
  exists num' s',
    destroy_number num s = Ok (num', s')
    /\ num' = {| object_type := object_type num; object_instance := NULL |}
    /\ (forall x, has_iface (mem s') num' x = has_iface (mem s) num x)
    /\ has_iface (mem s') num' (Ptr printable_iface_addr) = Ok number_printable_impl
    /\ println num' number_printable_impl s' = Fault (Undefined NullDeref)
    /\ (forall buf, number_print num' 2 buf s' = Fault (Undefined NullDeref)).
Proof.
  intros Hs Ht Hi Ha. eexists _, _.
  split; [unfold destroy_number, bind; rewrite Hi, (free_allocated s a c Ha);
          reflexivity|].
  split; [reflexivity|].
  assert (Hs' : statics_loaded (<[a := released c]> (mem s))).
  { eapply statics_loaded_overwrite; [exact Hs|exact Ha|discriminate]. }
  cbn [mem with_mem]. split; [|split; [|split]].
  - intros x. destruct (decide (x = Ptr printable_iface_addr)) as [->|Hx].
    + rewrite !number_has_iface_printable; auto.
    + rewrite !number_has_iface_other; auto.
  - apply number_has_iface_printable; auto.
  - unfold println, println_assertion, bind, assert, reading.
    cbn [impl_vtable impl_type number_printable_impl mem with_mem].
    rewrite bool_decide_eq_true_2 by discriminate. unfold ret at 1.
    change (mem (with_mem s (<[a:=released c]> (mem s))))
      with (<[a:=released c]> (mem s)).
    rewrite (statics_vtable _ Hs'). cbn [toString number_printable_vtable call_toString].
    rewrite number_print_null_instance; [reflexivity|exact Ht|reflexivity|lia].
  - intros buf. apply number_print_null_instance; [exact Ht|reflexivity|lia].
Qed.

Lemma use_after_destroy_unchecked_witness :
  exists num' s',
    destroy_number three (three_state 0) = Ok (num', s')
    /\ has_iface (mem s') num' (Ptr printable_iface_addr) = Ok number_printable_impl
    /\ println (H := LP64) num' number_printable_impl s' = Fault (Undefined NullDeref).
Proof.
  destruct (use_after_destroy_unchecked (H := LP64) (three_state 0) three three_addr
              (CNumber {| representation := 3 |}) (three_state_statics 0)
              eq_refl eq_refl eq_refl)
    as (num' & s' & Hd & _ & _ & Hr & Hp & _).
  exists num', s'. repeat split; assumption.
Defined.

(** C9.  The first [destroy_number] frees the payload and nulls the
    handle's instance reference, leaving the rest of the state as it was.  A
    second call on the destroyed handle is [free(NULL)] followed by the same
    store of null: it returns normally with the state and the handle
    unchanged, and the null instance reference shows the handle is
    destroyed. *)
Theorem destroy_number_twice s num a c :
  object_instance num = Ptr a ->
  mem s !! a = Some (allocated c) ->
  exists num' s',
    destroy_number num s = Ok (num', s')
    /\ object_type num' = object_type num
    /\ object_instance num' = NULL
    /\ s' = with_mem s (<[a := released c]> (mem s))
    /\ destroy_number num' s' = Ok (num', s').
Proof.
  intros Hi Ha. eexists _, _.
  split; [unfold destroy_number, bind; rewrite Hi, (free_allocated s a c Ha);
          reflexivity|].
  repeat split.
Qed.

(** Through a copy of the handle taken before the first call, the second
    call frees the payload again. *)
Remark destroy_number_stale_copy s num a c :
  object_instance num = Ptr a ->
  mem s !! a = Some (allocated c) ->
  destroy_number num (with_mem s (<[a := released c]> (mem s)))
  = Fault (Undefined BadFree).
Proof.
  intros Hi Ha. unfold destroy_number, bind. rewrite Hi.
  rewrite (free_released _ a c); [reflexivity|]. cbn. apply lookup_insert_eq.
Qed.

Lemma destroy_number_twice_witness :
  exists num' s',
    destroy_number three (three_state 0) = Ok (num', s')
    /\ object_instance num' = NULL
    /\ mem s' !! three_addr = Some (released (CNumber {| representation := 3 |}))
    /\ destroy_number num' s' = Ok (num', s').
Proof.
  destruct (destroy_number_twice (three_state 0) three three_addr
              (CNumber {| representation := 3 |}) eq_refl eq_refl)
    as (num' & s' & Hd & _ & Hi & -> & Hagain).
  eexists _, _. split; [exact Hd|]. split; [exact Hi|]. split; [reflexivity|].
  exact Hagain.
Defined.

(** ** The null test *)

(** C10.  [iface_isnull] answers 1 exactly when the binding's table is null
    and 0 otherwise; the [type] field plays no part.  In particular the
    binding a release leaves behind, whose [type] is still the descriptor it
    was made for, counts as absent. *)
Theorem iface_isnull_table_only (b : impl) :
  (iface_isnull b = 1 <-> impl_vtable b = NULL)
  /\ (iface_isnull b = 0 <-> impl_vtable b <> NULL)
  /\ (forall t, iface_isnull {| impl_type := t; impl_vtable := impl_vtable b |}
                = iface_isnull b)
  /\ (forall s b' s',
        destroy_number_print_iface b s = Ok (b', s') ->
        impl_type b' = impl_type b /\ iface_isnull b' = 1).
Proof.
  unfold iface_isnull. split; [|split; [|split]].
  - destruct (decide (impl_vtable b = NULL)); split; intros; try congruence; lia.
  - destruct (decide (impl_vtable b = NULL)); split; intros; try congruence; lia.
  - reflexivity.
  - intros s b' s'. unfold destroy_number_print_iface, bind, ret.
    destruct (free (impl_vtable b) s) as [[[] s0]|f]; [|discriminate].
    intros [= <- <-]. split; reflexivity.
Qed.

Lemma iface_isnull_table_only_witness :
  impl_type released_binding = Ptr printable_iface_addr
  /\ iface_isnull released_binding = 1.
Proof.
  apply (iface_isnull_table_only generated_binding) with
    (s := generated_state) (s' := released_state).
  reflexivity.
Defined.

(** * Further properties of the program *)

(** ** Sequencing and loads through updates *)

Lemma bind_Ok {A B} (c : M A) (k : A -> M B) s a s' :
  c s = Ok (a, s') -> bind c k s = k a s'.
Proof. intros Hc. unfold bind. rewrite Hc. reflexivity. Qed.

Lemma bind_Fault {A B} (c : M A) (k : A -> M B) s f :
  c s = Fault f -> bind c k s = Fault f.
Proof. intros Hc. unfold bind. rewrite Hc. reflexivity. Qed.

Lemma load_insert_ne (m : gmap addr block) a a' b :
  a <> a' -> load (<[a := b]> m) (Ptr a') = load m (Ptr a').
Proof. intros Hne. unfold load. rewrite lookup_insert_ne by exact Hne. reflexivity. Qed.

Lemma load_number_insert_ne (m : gmap addr block) a a' b :
  a <> a' -> load_number (<[a := b]> m) (Ptr a') = load_number m (Ptr a').
Proof. intros Hne. unfold load_number. rewrite load_insert_ne by exact Hne. reflexivity. Qed.

Lemma load_number_allocated (m : gmap addr block) a n :
  load_number (<[a := allocated (CNumber n)]> m) (Ptr a) = Ok n.
Proof. unfold load_number. rewrite load_insert_eq by reflexivity. reflexivity. Qed.

Lemma load_vtable_live (m : gmap addr block) a b v :
  blk_live b = true -> blk_content b = CVtable v ->
  load_vtable (<[a := b]> m) (Ptr a) = Ok v.
Proof.
  intros Hl Hc. unfold load_vtable. rewrite load_insert_eq by exact Hl.
  rewrite Hc. reflexivity.
Qed.

Lemma uchar_of_Z_code z : Z.of_N (Byte.to_N (uchar_of_Z z)) = z mod 256.
Proof.
  unfold uchar_of_Z.
  assert (Hr : 0 <= z mod 256 < 256) by (apply Z.mod_pos_bound; lia).
  destruct (Byte.of_N (Z.to_N (z mod 256))) as [b|] eqn:Hb.
  - apply Byte.to_of_N in Hb. simpl. rewrite Hb. lia.
  - apply Byte.of_N_None_iff in Hb. lia.
Qed.

(** ** What [println] and [number_print] touch *)



(** X5.  A call of [number_print] that returns has changed nothing but the
    first byte of the buffer: the state is the same, the buffer has the
    length it had and the same bytes after the first; and with a [length]
    of at most 1 the buffer comes back untouched. *)
Theorem number_print_buffer `{Platform} self len buf s buf' s' :
  number_print self len buf s = Ok (buf', s') ->
  s' = s
  /\ length buf' = length buf
  /\ drop 1 buf' = drop 1 buf
  /\ (len <= 1 -> buf' = buf).
Proof.
  unfold number_print, bind, assert, reading.
  destruct (bool_decide (object_type self = Ptr number_class_addr)); [|discriminate].
  unfold ret at 1. destruct (decide (len > 1)) as [Hgt|Hle].
  - destruct (load_number (mem s) (object_instance self)) as [n|e]; [|discriminate].
    destruct (decide (representation n + 48 > INT_MAX)); [discriminate|].
    destruct buf as [|b0 rest]; [discriminate|].
    unfold ret. intros [= <- <-]. repeat split. lia.
  - unfold ret. intros [= <- <-]. repeat split.
Qed.

Lemma number_print_buffer_witness :
  number_print (H := LP64) three 2 [x00; x0a] (three_state 0)
    = Ok ([x33; x0a], three_state 0)
  /\ drop 1 [x33; x0a] = drop 1 [x00; x0a].
Proof.
  split; [reflexivity|].
  apply (number_print_buffer (H := LP64) three 2 [x00; x0a] (three_state 0)
           [x33; x0a] (three_state 0)).
  reflexivity.
Defined.

(** ** The class assertion *)

(** X6.  An object of any class other than [number_class] is never treated
    as a number: [number_print] and [new_runtime_number_print_iface] stop at
    their assertion, and so does [println] whenever the binding's table
    leads to [number_print]. *)
Theorem foreign_object_rejected `{Platform} self s :
  object_type self <> Ptr number_class_addr ->
  (forall len buf,
     number_print self len buf s = Fault (AssertionFailed in_number_print))
  /\ new_runtime_number_print_iface self s
     = Fault (AssertionFailed in_new_runtime_number_print_iface)
  /\ (forall contract,
        load_vtable (mem s) (impl_vtable contract) = Ok {| toString := fun_number_print |} ->
        println self contract s = Fault (AssertionFailed in_number_print)).
Proof.
  intros Ht.
  assert (Hnp : forall len buf,
             number_print self len buf s = Fault (AssertionFailed in_number_print)).
  { intros len buf. unfold number_print, bind, assert.
    rewrite bool_decide_eq_false_2 by exact Ht. reflexivity. }
  split; [exact Hnp|]. split.
  - unfold new_runtime_number_print_iface, bind, assert.
    rewrite bool_decide_eq_false_2 by exact Ht. reflexivity.
  - intros contract Hv. unfold println, println_assertion, bind, assert, reading.
    cbn [impl_vtable impl_type]. rewrite bool_decide_eq_true_2 by discriminate.
    unfold ret at 1. rewrite Hv. cbn [toString call_toString].
    rewrite Hnp. reflexivity.
Qed.

Lemma foreign_object_rejected_witness :
  println (H := LP64) shape_object number_printable_impl (three_state 0)
  = Fault (AssertionFailed in_number_print).
Proof.
  apply (foreign_object_rejected (H := LP64) shape_object (three_state 0)).
  - discriminate.
  - reflexivity.
Defined.

(** ** What is printed *)

(** X7.  For a live number whose [representation + '0'] does not overflow,
    [println] writes the byte whose code is [representation + 48] reduced
    modulo 256, then a newline: a decimal digit for 0 to 9, and the same
    byte for any two values that differ by a multiple of 256. *)
Theorem println_renders_low_byte `{Platform} s self contract n :
  load_vtable (mem s) (impl_vtable contract) = Ok {| toString := fun_number_print |} ->
  object_type self = Ptr number_class_addr ->
  load_number (mem s) (object_instance self) = Ok n ->
  representation n + 48 <= INT_MAX ->
  exists c,
    println self contract s = Ok (tt, printed s [c; x0a])
    /\ Z.of_N (Byte.to_N c) = (representation n + 48) mod 256
    /\ (0 <= representation n <= 9 -> Z.of_N (Byte.to_N c) = 48 + representation n).
Proof.
  intros Hv Ht Hn Hmax. exists (uchar_of_Z (representation n + 48)).
  rewrite (println_number s self contract n Hv Ht Hn).
  destruct (decide (representation n + 48 > INT_MAX)) as [Hgt|_]; [lia|].
  split; [reflexivity|]. split; [apply uchar_of_Z_code|].
  intros Hd. rewrite uchar_of_Z_code. rewrite Z.mod_small; lia.
Qed.

Lemma println_renders_low_byte_witness :
  exists c,
    println (H := LP64) three number_printable_impl (number_state 259)
      = Ok (tt, printed (number_state 259) [c; x0a])
    /\ Z.of_N (Byte.to_N c) = 51.
Proof.
  destruct (println_renders_low_byte (H := LP64) (number_state 259) three
              number_printable_impl {| representation := 259 |})
    as (c & Hp & Hc & _).
  - reflexivity.
  - reflexivity.
  - reflexivity.
  - discriminate.
  - exists c. split; [exact Hp|exact Hc].
Defined.



(** ** Handles do not alias *)

(** X9.  Two numbers constructed one after the other have different
    payloads, and each keeps the value it was constructed with. *)
Theorem new_number_fresh `{Platform} s k v1 v2 :
  avail s = S (S k) ->
  exists o1 s1 o2 s2,
    new_number v1 s = Ok (o1, s1)
    /\ new_number v2 s1 = Ok (o2, s2)
    /\ object_instance o1 <> object_instance o2
    /\ load_number (mem s2) (object_instance o1) = Ok {| representation := v1 |}
    /\ load_number (mem s2) (object_instance o2) = Ok {| representation := v2 |}
    /\ frame s s2.
Proof.
  intros Hk. eexists _, _, _, _.
  split; [apply new_number_Ok; exact Hk|].
  split; [apply new_number_Ok; reflexivity|].
  cbn [object_instance mem].
  set (a1 := fresh (dom (mem s))).
  set (m1 := <[a1 := allocated (CNumber {| representation := v1 |})]> (mem s)).
  set (a2 := fresh (dom m1)).
  assert (H1 : mem s !! a1 = None) by apply fresh_lookup_None.
  assert (H2 : m1 !! a2 = None) by apply fresh_lookup_None.
  assert (Hne : a2 <> a1).
  { intros Heq. rewrite Heq in H2. unfold m1 in H2.
    rewrite lookup_insert_eq in H2. discriminate. }
  split; [congruence|]. split; [|split].
  - rewrite load_number_insert_ne by exact Hne. apply load_number_allocated.
  - apply load_number_allocated.
  - intros a b Hb. cbn [mem].
    rewrite lookup_insert_ne by (intros <-; unfold m1 in H2;
      rewrite lookup_insert_ne in H2 by congruence; congruence).
    unfold m1. rewrite lookup_insert_ne by congruence. exact Hb.
Qed.

Lemma new_number_fresh_witness :
  exists o1 s1 o2 s2,
    new_number (H := LP64) 3 (initial_state (H := LP64) 2) = Ok (o1, s1)
    /\ new_number (H := LP64) 0 s1 = Ok (o2, s2)
    /\ object_instance o1 <> object_instance o2
    /\ load_number (mem s2) (object_instance o1) = Ok {| representation := 3 |}
    /\ load_number (mem s2) (object_instance o2) = Ok {| representation := 0 |}.
Proof.
  destruct (new_number_fresh (H := LP64) (initial_state (H := LP64) 2) 0 3 0 eq_refl)
    as (o1 & s1 & o2 & s2 & H1 & H2 & Hne & L1 & L2 & _).
  exists o1, s1, o2, s2. repeat split; assumption.
Defined.

(** ** A released table *)

(** X11.  Once a generated binding is released, [println] through it reads
    through the null table pointer, and [println] through a copy taken
    before the release reads the freed table; either is an undefined
    access, for every receiver. *)
Theorem println_after_release `{Platform} s generated a c self :
  impl_vtable generated = Ptr a ->
  mem s !! a = Some (allocated c) ->
  exists generated' s',
    destroy_number_print_iface generated s = Ok (generated', s')
    /\ println self generated' s' = Fault (Undefined NullDeref)
    /\ println self generated s' = Fault (Undefined Dangling).
Proof.
  intros Hv Ha. eexists _, _.
  split; [unfold destroy_number_print_iface, bind; rewrite Hv,
            (free_allocated s a c Ha); reflexivity|].
  split.
  - reflexivity.
  - unfold println, println_assertion, bind, assert, reading.
    cbn [impl_vtable impl_type]. rewrite bool_decide_eq_true_2 by discriminate.
    unfold ret at 1. rewrite Hv. unfold load_vtable, load. cbn [mem with_mem].
    rewrite lookup_insert_eq. reflexivity.
Qed.

Lemma println_after_release_witness :
  println (H := LP64) three released_binding released_state
    = Fault (Undefined NullDeref)
  /\ println (H := LP64) three generated_binding released_state
     = Fault (Undefined Dangling).
Proof.
  destruct (println_after_release (H := LP64) generated_state generated_binding
              generated_addr (CVtable {| toString := fun_number_print |}) three
              eq_refl eq_refl)
    as (g & s' & Hd & Hnull & Hstale).
  injection Hd as <- <-. split; [exact Hnull|exact Hstale].
Defined.

(** ** The first match wins *)

Lemma has_iface_from_first_match m c x arr e j :
  load_impls m (interfaces c) = Ok arr ->
  arr !! j = Some e ->
  impl_type e = x ->
  forall n i,
    (forall i' e', (i <= i' < j)%nat -> arr !! i' = Some e' -> impl_type e' <> x) ->
    (i <= j < i + n)%nat ->
    has_iface_from m c x n i = Ok e.
Proof.
  intros Hload Hj Hx. induction n as [|n IH]; intros i Hbefore Hij; [lia|].
  cbn [has_iface_from]. rewrite Hload. cbn [rbind].
  destruct (decide (i = j)) as [->|Hne].
  - rewrite Hj. destruct (decide (impl_type e = x)); [reflexivity|contradiction].
  - assert (Hlt : (i < length arr)%nat).
    { apply lookup_lt_Some in Hj. lia. }
    destruct (lookup_lt_is_Some_2 arr i Hlt) as [e' He']. rewrite He'.
    destruct (decide (impl_type e' = x)) as [Heq|_].
    + exfalso. apply (Hbefore i e'); [lia|exact He'|exact Heq].
    + apply IH; [|lia]. intros i' e'' Hi'. apply Hbefore. lia.
Qed.

(** X3.  [has_iface] returns the first entry of the array whose descriptor
    is the queried one, provided its index is below [interface_count]:
    later entries for the same descriptor are never reached, and neither is
    the end of the array, even when [interface_count] exceeds the number of
    entries the array holds. *)
Theorem has_iface_first_match m self c arr x j e :
  load_class m (object_type self) = Ok c ->
  load_impls m (interfaces c) = Ok arr ->
  arr !! j = Some e ->
  impl_type e = x ->
  (forall i e', (i < j)%nat -> arr !! i = Some e' -> impl_type e' <> x) ->
  (j < uchar_to_nat (interface_count c))%nat ->
  has_iface m self x = Ok e.
Proof.
  intros Hc Hload Hj Hx Hbefore Hcount. unfold has_iface. rewrite Hc. cbn [rbind].
  apply (has_iface_from_first_match m c x arr e j Hload Hj Hx).
  - intros i' e' Hi'. apply Hbefore. lia.
  - lia.
Qed.

(** A class with the same descriptor declared twice, with different tables. *)
Lemma has_iface_first_match_witness :
  has_iface
    (<[1%positive := static_block
         (CClass {| instance_size := 4; interface_count := x05; interfaces := Ptr 2%positive |})]>
     (<[2%positive := static_block
          (CImpls [ {| impl_type := Ptr 7%positive; impl_vtable := Ptr 20%positive |};
                    {| impl_type := Ptr 8%positive; impl_vtable := Ptr 21%positive |};
                    {| impl_type := Ptr 8%positive; impl_vtable := Ptr 22%positive |} ])]> ∅))
    {| object_type := Ptr 1%positive; object_instance := NULL |}
    (Ptr 8%positive)
  = Ok {| impl_type := Ptr 8%positive; impl_vtable := Ptr 21%positive |}.
Proof.
  eapply (has_iface_first_match _ _ _ _ _ 1%nat).
  - reflexivity.
  - reflexivity.
  - reflexivity.
  - reflexivity.
  - intros i e' Hi He'. destruct i as [|i]; [|lia].
    injection He' as <-. discriminate.
  - vm_compute. lia.
Defined.

(** ** Static objects are never written *)




Section Steps.
Context `{Platform}.




End Steps.



(** ** The whole of [main] *)

Section MainRun.
Context `{Platform}.

Lemma new_runtime_number_print_iface_exhausted o s :
  object_type o = Ptr number_class_addr -> avail s = O ->
  new_runtime_number_print_iface o s = Fault (Undefined NullDeref).
Proof.
  intros Ht Hk. unfold new_runtime_number_print_iface, bind, assert, malloc.
  rewrite Ht, bool_decide_eq_true_2 by reflexivity.
  unfold ret at 1. cbv beta iota. rewrite Hk. reflexivity.
Qed.

Lemma load_number_lookup (m : gmap addr block) a n :
  m !! a = Some (allocated (CNumber n)) -> load_number m (Ptr a) = Ok n.
Proof. intros Ha. unfold load_number, load. rewrite Ha. reflexivity. Qed.

Lemma load_vtable_lookup (m : gmap addr block) a b v :
  m !! a = Some b -> blk_live b = true -> blk_content b = CVtable v ->
  load_vtable m (Ptr a) = Ok v.
Proof. intros Ha Hl Hc. unfold load_vtable, load. rewrite Ha, Hl, Hc. reflexivity. Qed.

Lemma println_small s self contract n :
  load_vtable (mem s) (impl_vtable contract) = Ok {| toString := fun_number_print |} ->
  object_type self = Ptr number_class_addr ->
  load_number (mem s) (object_instance self) = Ok n ->
  representation n + 48 <= 32767 ->
  println self contract s
  = Ok (tt, printed s [uchar_of_Z (representation n + 48); x0a]).
Proof.
  intros Hv Ht Hn Hsmall. rewrite (println_number s self contract n Hv Ht Hn).
  pose proof INT_MAX_min.
  destruct (decide (representation n + 48 > INT_MAX)); [lia|reflexivity].
Qed.

Lemma destroy_number_print_iface_Ok s generated a c :
  impl_vtable generated = Ptr a ->
  mem s !! a = Some (allocated c) ->
  destroy_number_print_iface generated s
  = Ok ({| impl_type := impl_type generated; impl_vtable := NULL |},
        with_mem s (<[a := released c]> (mem s))).
Proof.
  intros Hv Ha. unfold destroy_number_print_iface, bind.
  rewrite Hv, (free_allocated s a c Ha). reflexivity.
Qed.

Lemma reading_Ok {A} (f : gmap addr block -> result A) s a :
  f (mem s) = Ok a -> reading f s = Ok (a, s).
Proof. intros Hf. unfold reading. rewrite Hf. reflexivity. Qed.

Lemma destroy_number_Ok s self a c :
  object_instance self = Ptr a ->
  mem s !! a = Some (allocated c) ->
  destroy_number self s
  = Ok ({| object_type := object_type self; object_instance := NULL |},
        with_mem s (<[a := released c]> (mem s))).
Proof.
  intros Hi Ha. unfold destroy_number, bind.
  rewrite Hi, (free_allocated s a c Ha). reflexivity.
Qed.

End MainRun.

(** X1.  Started in any state that holds the static objects and in which
    two allocations succeed, [main] returns 0 and writes the line "3" four
    times, once through each kind of binding.  It leaves every block that
    existed before as it was, and every block it created (the number, the
    generated table, the local table) is dead at the end: nothing leaks. *)
Theorem main_run `{Platform} s k :
  statics_loaded (mem s) -> avail s = S (S k) ->
  exists s',
    main s = Ok (0, s')
    /\ stdout s' = stdout s ++ four_lines
    /\ avail s' = k
    /\ frame s s'
    /\ (forall a b, mem s' !! a = Some b -> mem s !! a = None -> blk_live b = false).
Proof.
  intros Hs Hk. unfold main.
  rewrite (bind_Ok _ _ _ _ _ (new_number_Ok s (S k) 3 Hk)).
  set (a1 := fresh (dom (mem s))).
  set (N3 := CNumber {| representation := 3 |}).
  set (m1 := <[a1 := allocated N3]> (mem s)).
  set (num := {| object_type := Ptr number_class_addr; object_instance := Ptr a1 |}).
  set (s1 := {| mem := m1; avail := S k; stdout := stdout s |}).
  rewrite (bind_Ok _ _ _ _ _ (new_runtime_number_print_iface_Ok s1 k num eq_refl eq_refl)).
  cbn [mem stdout s1].
  set (a2 := fresh (dom m1)).
  set (VT := CVtable {| toString := fun_number_print |}).
  set (m2 := <[a2 := allocated VT]> m1).
  set (g := {| impl_type := Ptr printable_iface_addr; impl_vtable := Ptr a2 |}).
  set (s2 := {| mem := m2; avail := k; stdout := stdout s |}).
  (* addresses *)
  assert (F1 : mem s !! a1 = None) by apply fresh_lookup_None.
  assert (F2 : m1 !! a2 = None) by apply fresh_lookup_None.
  assert (N21 : a2 <> a1).
  { intros E. rewrite E in F2. unfold m1 in F2. rewrite lookup_insert_eq in F2.
    discriminate. }
  assert (F2s : mem s !! a2 = None).
  { unfold m1 in F2. rewrite lookup_insert_ne in F2 by congruence. exact F2. }
  set (m4 := <[a2 := released VT]> m2).
  set (a3 := fresh (dom m4)).
  assert (F3 : m4 !! a3 = None) by apply fresh_lookup_None.
  assert (N32 : a3 <> a2).
  { intros E. rewrite E in F3. unfold m4 in F3. rewrite lookup_insert_eq in F3.
    discriminate. }
  assert (N31 : a3 <> a1).
  { intros E. rewrite E in F3. unfold m4, m2, m1 in F3.
    rewrite !lookup_insert_ne, lookup_insert_eq in F3 by congruence. discriminate. }
  assert (F3s : mem s !! a3 = None).
  { unfold m4, m2, m1 in F3. rewrite !lookup_insert_ne in F3 by congruence. exact F3. }
  set (AT := {| blk_storage := Automatic; blk_live := true; blk_content := VT |}).
  set (m5 := <[a3 := AT]> m4).
  (* the static objects *)
  assert (S1 : statics_loaded m1) by (apply statics_loaded_fresh; assumption).
  assert (S2 : statics_loaded m2) by (apply statics_loaded_fresh; assumption).
  assert (S4 : statics_loaded m4).
  { unfold m4. eapply statics_loaded_overwrite; [exact S2| |].
    - unfold m2. apply lookup_insert_eq.
    - discriminate. }
  assert (S5 : statics_loaded m5) by (apply statics_loaded_fresh; assumption).
  (* the payload *)
  assert (L2 : load_number m2 (Ptr a1) = Ok {| representation := 3 |}).
  { apply load_number_lookup. unfold m2, m1.
    rewrite lookup_insert_ne, lookup_insert_eq by congruence. reflexivity. }
  assert (L5 : load_number m5 (Ptr a1) = Ok {| representation := 3 |}).
  { apply load_number_lookup. unfold m5, m4, m2, m1.
    rewrite !lookup_insert_ne, lookup_insert_eq by congruence. reflexivity. }
  (* println through the generated binding *)
  rewrite (bind_Ok _ _ _ _ _
             (println_small s2 num g {| representation := 3 |}
                (load_vtable_live m1 a2 (allocated VT) _ eq_refl eq_refl)
                eq_refl L2 ltac:(discriminate))).
  change (uchar_of_Z (representation {| representation := 3 |} + 48)) with x33.
  (* release *)
  rewrite (bind_Ok _ _ _ _ _
             (destroy_number_print_iface_Ok (printed s2 [x33; x0a]) g a2 VT eq_refl
                (lookup_insert_eq m1 a2 (allocated VT)))).
  change (with_mem (printed s2 [x33; x0a]) (<[a2 := released VT]> (mem (printed s2 [x33; x0a]))))
    with {| mem := m4; avail := k; stdout := stdout s ++ [x33; x0a] |}.
  (* the hand-assembled binding *)
  rewrite (bind_Ok _ _ _ _ _
             (my_printable_implementation_Ok
                {| mem := m4; avail := k; stdout := stdout s ++ [x33; x0a] |} S4)).
  change (with_mem {| mem := m4; avail := k; stdout := stdout s ++ [x33; x0a] |}
            (<[fresh (dom (mem {| mem := m4; avail := k;
                                  stdout := stdout s ++ [x33; x0a] |})) := AT]>
               (mem {| mem := m4; avail := k; stdout := stdout s ++ [x33; x0a] |})))
    with {| mem := m5; avail := k; stdout := stdout s ++ [x33; x0a] |}.
  change (fresh (dom (mem {| mem := m4; avail := k;
                             stdout := stdout s ++ [x33; x0a] |}))) with a3.
  set (duck := {| impl_type := Ptr printable_iface_addr; impl_vtable := Ptr a3 |}).
  rewrite (bind_Ok _ _ _ _ _
             (println_small {| mem := m5; avail := k; stdout := stdout s ++ [x33; x0a] |}
                num duck {| representation := 3 |}
                (load_vtable_live m4 a3 AT _ eq_refl eq_refl)
                eq_refl L5 ltac:(discriminate))).
  change (uchar_of_Z (representation {| representation := 3 |} + 48)) with x33.
  (* the static binding *)
  rewrite (bind_Ok _ _ _ _ _
             (println_small
                (printed {| mem := m5; avail := k; stdout := stdout s ++ [x33; x0a] |}
                   [x33; x0a])
                num number_printable_impl {| representation := 3 |}
                (statics_vtable m5 S5) eq_refl L5 ltac:(discriminate))).
  change (uchar_of_Z (representation {| representation := 3 |} + 48)) with x33.
  (* the binding found by [has_iface] *)
  unfold bind at 1, reading at 1. cbn [mem printed].
  rewrite (number_has_iface_printable m5 num S5 eq_refl).
  destruct (decide (iface_isnull number_printable_impl = 0)) as [_|Hnull];
    [|exfalso; apply Hnull; reflexivity].
  rewrite (bind_Ok _ _ _ _ _
             (println_small
                (printed
                   (printed {| mem := m5; avail := k; stdout := stdout s ++ [x33; x0a] |}
                      [x33; x0a])
                   [x33; x0a])
                num number_printable_impl {| representation := 3 |}
                (statics_vtable m5 S5) eq_refl L5 ltac:(discriminate))).
  change (uchar_of_Z (representation {| representation := 3 |} + 48)) with x33.
  (* destruction *)
  assert (P5 : m5 !! a1 = Some (allocated N3)).
  { unfold m5, m4, m2, m1. rewrite !lookup_insert_ne, lookup_insert_eq by congruence.
    reflexivity. }
  match goal with |- exists _, bind _ _ ?st = _ /\ _ => set (s9 := st) end.
  rewrite (bind_Ok _ _ _ _ _ (destroy_number_Ok s9 num a1 N3 eq_refl P5)).
  unfold bind, end_scope, ret. cbn [impl_vtable duck].
  eexists. split; [reflexivity|].
  subst s9. unfold frame. cbn [mem with_mem printed avail stdout].
  split; [unfold four_lines; rewrite <- !app_assoc; reflexivity|].
  split; [reflexivity|]. split.
  - intros a b Hb.
    assert (a <> a1 /\ a <> a2 /\ a <> a3) as (D1 & D2 & D3)
      by (repeat split; intros ->; congruence).
    rewrite lookup_alter_ne by congruence.
    unfold m5, m4, m2, m1. rewrite !lookup_insert_ne by congruence. exact Hb.
  - intros a b Hb Hnew.
    destruct (decide (a = a3)) as [->|D3].
    { rewrite lookup_alter_eq in Hb. apply fmap_Some in Hb as (b3 & _ & ->).
      reflexivity. }
    rewrite lookup_alter_ne in Hb by congruence.
    destruct (decide (a = a1)) as [->|D1].
    { rewrite lookup_insert_eq in Hb. injection Hb as <-. reflexivity. }
    rewrite lookup_insert_ne in Hb by congruence. unfold m5 in Hb.
    rewrite lookup_insert_ne in Hb by congruence. unfold m4 in Hb.
    destruct (decide (a = a2)) as [->|D2].
    { rewrite lookup_insert_eq in Hb. injection Hb as <-. reflexivity. }
    unfold m2, m1 in Hb. rewrite !lookup_insert_ne in Hb by congruence. congruence.
Qed.

Lemma main_run_witness :
  exists s',
    main (H := LP64) (initial_state (H := LP64) 2) = Ok (0, s')
    /\ stdout s' = four_lines
    /\ avail s' = O.
Proof.
  destruct (main_run (H := LP64) (initial_state (H := LP64) 2) 0
              (statics_loaded_image (H := LP64)) eq_refl)
    as (s' & Hrun & Hout & Hav & _).
  exists s'. repeat split; assumption.
Defined.

(** X2.  No caller of [malloc] tests its result.  When the allocator is
    exhausted, [new_number] and [new_runtime_number_print_iface] write
    through the null pointer, and [main], which needs two allocations, does
    the same when fewer than two succeed. *)
Theorem allocation_failure_unchecked `{Platform} s :
  (avail s < 2)%nat ->
  main s = Fault (Undefined NullDeref)
  /\ (avail s = O ->
      (forall value, new_number value s = Fault (Undefined NullDeref))
      /\ (forall o, object_type o = Ptr number_class_addr ->
                    new_runtime_number_print_iface o s = Fault (Undefined NullDeref))).
Proof.
  intros Hlt. split.
  - unfold main. destruct (avail s) as [|[|k]] eqn:Hk; [| |lia].
    + apply bind_Fault, new_number_exhausted, Hk.
    + rewrite (bind_Ok _ _ _ _ _ (new_number_Ok s 0 3 Hk)).
      apply bind_Fault, new_runtime_number_print_iface_exhausted; reflexivity.
  - intros Hk. split.
    + intros value. apply new_number_exhausted, Hk.
    + intros o Ho. apply new_runtime_number_print_iface_exhausted; assumption.
Qed.

Lemma allocation_failure_unchecked_witness :
  main (H := LP64) (initial_state (H := LP64) 1) = Fault (Undefined NullDeref).
Proof.
  apply (allocation_failure_unchecked (H := LP64) (initial_state (H := LP64) 1)).
  vm_compute. lia.
Defined.
